(** * Request gateway of the LegalEase frontend: [frontend/src/services/api.ts]

    A shallow embedding of the axios-based API service and of its error
    helper [handleAPIError], followed by the properties established for
    them.

    Conventions of the embedding.
    - JavaScript values are the inductive [Js.value].  Numbers are
      integers ([Z]); floats, [NaN] and the infinities are outside the
      model, and so are arrays and functions.  The text of a number is
      the program's for the safe integers ([Js.safe_integer]); the
      properties that depend on the digits carry that bound.
    - Strings are well-formed UTF-8 byte sequences; a string with a lone
      surrogate has no counterpart in the model.
    - An object is the list of its own enumerable properties in the order
      in which [Object.entries] enumerates them.
    - Reading a property of [undefined] or [null] throws a [TypeError];
      this is the only exception the module can raise, so a computation
      that may throw has type [completion A].
    - Console output and the requests handed to the HTTP adapter are
      effects: they are threaded through a [World] by the monad [IO]. *)

From Stdlib Require Import List String Ascii ZArith Bool Lia DecimalString.
From Stdlib Require Import DecimalPos DecimalZ.
Import ListNotations.

Open Scope string_scope.
Open Scope Z_scope.

(* ================================================================== *)
(** * JavaScript values *)
(* ================================================================== *)

Module Js.

#[warnings="-register-all"]
Inductive value : Type :=
| Undefined
| Null
| Bool (b : bool)
| Num (n : Z)
| Str (s : string)
| Obj (props : list (string * value)).

(** Result of evaluating an expression that may throw. *)
Inductive completion (A : Type) : Type :=
| Return (a : A)
| ThrowTypeError.

Arguments Return {A} a.
Arguments ThrowTypeError {A}.

Definition bind {A B} (c : completion A) (k : A -> completion B) : completion B :=
  match c with
  | Return a => k a
  | ThrowTypeError => ThrowTypeError
  end.

(** [v === undefined || v === null] *)
Definition nullish (v : value) : bool :=
  match v with
  | Undefined | Null => true
  | _ => false
  end.

(** ToBoolean. *)
Definition truthy (v : value) : bool :=
  match v with
  | Undefined | Null => false
  | Bool b => b
  | Num n => negb (n =? 0)
  | Str s => negb (s =? EmptyString)%string
  | Obj _ => true
  end.

(** First property named [k] in a property list. *)
Fixpoint lookup (k : string) (props : list (string * value)) : option value :=
  match props with
  | [] => None
  | (k', v) :: rest => if (k' =? k)%string then Some v else lookup k rest
  end.

(** Value of [v.k] when [v] is neither [undefined] nor [null].  A
    missing property reads as [undefined]; primitives carry no own
    properties.  (None of the names read by the gateway is defined on a
    built-in prototype.) *)
Definition prop (v : value) (k : string) : value :=
  match v with
  | Obj props =>
      match lookup k props with
      | Some x => x
      | None => Undefined
      end
  | _ => Undefined
  end.

(** [v.k] *)
Definition get (v : value) (k : string) : completion value :=
  if nullish v then ThrowTypeError else Return (prop v k).

(** [v?.k] *)
Definition get_opt (v : value) (k : string) : value :=
  if nullish v then Undefined else prop v k.

(** Decimal digits of an integer, as in a template literal [`${n}`].
    These are the digits JavaScript prints for every safe integer
    ([safe_integer], defined below); beyond that range it rounds the
    digits, and from 10^21 on it switches to exponent notation. *)
Definition number_toString (n : Z) : string :=
  NilZero.string_of_int (Z.to_int n).

(** The integers that a JavaScript number holds exactly and prints in
    plain decimal: [Number.isSafeInteger]. *)
Definition safe_integer (n : Z) : bool :=
  Z.abs n <=? 9007199254740991.

(** [v.toString()] : decimal digits for a number, the string itself for
    a string, and [Object.prototype.toString] for an object that has no
    [toString] of its own.  An own [toString] hides the inherited one;
    functions being outside the model, it is not callable and the call
    throws. *)
Definition toString (v : value) : completion string :=
  match v with
  | Undefined | Null => ThrowTypeError
  | Bool true => Return "true"
  | Bool false => Return "false"
  | Num n => Return (NilZero.string_of_int (Z.to_int n))
  | Str s => Return s
  | Obj props =>
      match lookup "toString" props with
      | None => Return "[object Object]"
      | Some _ => ThrowTypeError
      end
  end.

(** The values on which [v.toString()] does not throw for want of a
    callable [toString]. *)
Definition has_toString (v : value) : bool :=
  match v with
  | Obj props =>
      match lookup "toString" props with
      | None => true
      | Some _ => false
      end
  | _ => true
  end.

(** The values whose text in the model is their text in the program:
    the above, with numbers in the safe range. *)
Definition printable (v : value) : bool :=
  match v with
  | Num n => safe_integer n
  | _ => has_toString v
  end.

(** [String(v)]: the text of [v.toString()] where that returns, and
    defined on [undefined] and [null] as well. *)
Definition String_of (v : value) : string :=
  match v with
  | Undefined => "undefined"
  | Null => "null"
  | Bool true => "true"
  | Bool false => "false"
  | Num n => number_toString n
  | Str s => s
  | Obj _ => "[object Object]"
  end.

Definition is_undefined (v : value) : bool :=
  match v with
  | Undefined => true
  | _ => false
  end.

Definition is_null (v : value) : bool :=
  match v with
  | Null => true
  | _ => false
  end.

(** An optional argument: [undefined] when the caller omits it. *)
Definition optional {A} (inj : A -> value) (arg : option A) : value :=
  match arg with
  | Some a => inj a
  | None => Undefined
  end.

(** A parameter with a default value, [(x = d) => ...]. *)
Definition default {A} (arg : option A) (d : A) : A :=
  match arg with
  | Some a => a
  | None => d
  end.

(** ** JSON serialization

    [JSON.stringify], kept as a tree rather than as text.  A property
    whose value is [undefined] is skipped; [undefined] itself has no
    JSON form. *)
#[warnings="-register-all"]
Inductive json : Type :=
| JNull
| JBool (b : bool)
| JNumber (n : Z)
| JString (s : string)
| JObject (members : list (string * json)).

Fixpoint stringify (v : value) : option json :=
  match v with
  | Undefined => None
  | Null => Some JNull
  | Bool b => Some (JBool b)
  | Num n => Some (JNumber n)
  | Str s => Some (JString s)
  | Obj props =>
      Some (JObject
              ((fix members (ps : list (string * value)) : list (string * json) :=
                  match ps with
                  | [] => []
                  | (k, x) :: rest =>
                      match stringify x with
                      | Some j => (k, j) :: members rest
                      | None => members rest
                      end
                  end) props))
  end.

Fixpoint member (k : string) (ms : list (string * json)) : option json :=
  match ms with
  | [] => None
  | (k', j) :: rest => if (k' =? k)%string then Some j else member k rest
  end.

Definition keys {A} (ps : list (string * A)) : list string := map fst ps.

End Js.

Import Js.

Declare Scope js_scope.
Delimit Scope js_scope with js.

Notation "x <- c ;; k" := (Js.bind c (fun x => k))
  (at level 61, c at next level, right associativity) : js_scope.

(* ================================================================== *)
(** * Error handling utility *)
(* ================================================================== *)

(** The object literal [{ message, status, code }] returned by
    [handleAPIError]. *)
Record NormalizedError : Type := {
  message : value;
  status : value;
  code : value
}.

Definition NormalizedError_value (ne : NormalizedError) : value :=
  Obj [("message", message ne); ("status", status ne); ("code", code ne)].

Definition handleAPIError (error : value) : completion NormalizedError :=
  (response <- get error "response" ;;
   if truthy response then
     (* const { status, data } = error.response *)
     status <- get response "status" ;;
     data <- get response "data" ;;
     msg <- (detail <- get data "detail" ;;
             if truthy detail then Return detail
             else
               err <- get data "error" ;;
               if truthy err then Return err
               else Return (Str "An error occurred")) ;;
     error_code <- get data "error_code" ;;
     Return {| message := msg; status := status; code := error_code |}
   else
     request <- get error "request" ;;
     if truthy request then
       Return {| message := Str "Network error - please check your connection";
                 status := Num 0;
                 code := Str "NETWORK_ERROR" |}
     else
       msg <- get error "message" ;;
       Return {| message := (if truthy msg then msg
                             else Str "An unexpected error occurred");
                 status := Num (-1);
                 code := Str "UNKNOWN_ERROR" |})%js.

(** An error as the HTTP client raises it for a response outside 2xx. *)
Definition response_error (http_status : Z) (body : value) : value :=
  Obj [("message", Str "Request failed");
       ("request", Obj []);
       ("response", Obj [("status", Num http_status); ("data", body)])].

(** An error as the HTTP client raises it when no response arrived. *)
Definition network_error : value :=
  Obj [("message", Str "Network Error"); ("request", Obj [])].

(* ================================================================== *)
(** * Query strings *)
(* ================================================================== *)

(** [URLSearchParams]: an ordered list of name/value pairs, serialized
    as [application/x-www-form-urlencoded].  Strings are sequences of
    UTF-8 bytes. *)
Module URLSearchParams.

Definition t : Type := list (string * string).

Definition new : t := [].

Definition append (sp : t) (name value : string) : t := (sp ++ [(name, value)])%list.

Definition hex_digit (n : N) : ascii :=
  match String.get (N.to_nat n) "0123456789ABCDEF" with
  | Some c => c
  | None => "0"%char
  end.

(** Bytes that the serializer leaves as they are: ASCII letters and
    digits, and the four characters [*], [-], [.] and [_]. *)
Definition unreserved (c : ascii) : bool :=
  let n := N_of_ascii c in
  ((48 <=? n) && (n <=? 57) || (65 <=? n) && (n <=? 90) || (97 <=? n) && (n <=? 122)
   || (n =? 42) || (n =? 45) || (n =? 46) || (n =? 95))%N.

Definition encode_byte (c : ascii) : string :=
  if (N_of_ascii c =? 32)%N then "+"
  else if unreserved c then String c EmptyString
  else
    let n := N_of_ascii c in
    String "%" (String (hex_digit (n / 16)) (String (hex_digit (n mod 16)) EmptyString)).

Fixpoint encode (s : string) : string :=
  match s with
  | EmptyString => EmptyString
  | String c rest => encode_byte c ++ encode rest
  end.

Definition pair_toString (p : string * string) : string :=
  encode (fst p) ++ "=" ++ encode (snd p).

Definition toString (sp : t) : string :=
  String.concat "&" (map pair_toString sp).

End URLSearchParams.

(** [Object.entries(o).forEach(f)] where [f] updates a mutable object:
    the object is threaded through the calls, and a throw ends the loop. *)
Fixpoint forEach {S : Type} (entries : list (string * value))
  (f : string * value -> S -> completion S) (s : S) : completion S :=
  match entries with
  | [] => Return s
  | e :: rest => Js.bind (f e s) (forEach rest f)
  end.

(* ================================================================== *)
(** * The HTTP client *)
(* ================================================================== *)

Inductive Method : Type := GET | POST | DELETE.

(** [config.method?.toUpperCase()] *)
Definition method_toUpperCase (m : Method) : string :=
  match m with
  | GET => "GET"
  | POST => "POST"
  | DELETE => "DELETE"
  end.

Record File : Type := {
  file_name : string;
  file_content : string
}.

(** [FormData]: the ordered list of its parts. *)
Module FormData.

Definition t : Type := list (string * File).

Definition new : t := [].

Definition append (fd : t) (name : string) (f : File) : t := (fd ++ [(name, f)])%list.

End FormData.

Inductive Body : Type :=
| NoBody
| JsonBody (v : value)
| FormBody (fd : FormData.t).

Record RequestConfig : Type := {
  baseURL : string;
  timeout : Z;
  headers : list (string * string);
  method : Method;
  url : string;
  data : Body
}.

Record Response : Type := {
  response_status : Z;
  response_data : value;
  response_config : RequestConfig
}.

(** What the HTTP adapter answers to a request: a response inside 2xx, or
    the error it rejects with. *)
Definition Adapter : Type := RequestConfig -> Response + value.

(** The instance built by [axios.create]. *)
Record AxiosInstance : Type := {
  default_baseURL : string;
  default_timeout : Z;
  default_headers : list (string * string);
  adapter : Adapter
}.

(** State of a promise returned to the caller. *)
Inductive Settled : Type :=
| Fulfilled (response : Response)
| Rejected (error : value)
| RejectedTypeError.

(** ** Effects *)

Inductive LogEntry : Type :=
| LogRequest (method_name : string) (request_url : string)
| LogResponse (http_status : Z) (request_url : string)
| LogRequestError (error : value)
| LogResponseError (payload : value).

Record World : Type := {
  console : list LogEntry;
  wire : list RequestConfig
}.

Definition IO (A : Type) : Type := World -> A * World.

Definition ret {A} (a : A) : IO A := fun w => (a, w).

Definition seq {A B} (m : IO A) (k : A -> IO B) : IO B :=
  fun w => let (a, w') := m w in k a w'.

Declare Scope io_scope.
Delimit Scope io_scope with io.

Notation "x <~ m ;; k" := (seq m (fun x => k))
  (at level 61, m at next level, right associativity) : io_scope.
Notation "m ;;; k" := (seq m (fun _ => k))
  (at level 61, right associativity) : io_scope.

Definition console_write (e : LogEntry) : IO unit :=
  fun w => (tt, {| console := (console w ++ [e])%list; wire := wire w |}).

(** Hands the request to the adapter. *)
Definition dispatch (ad : Adapter) (config : RequestConfig) : IO (Response + value) :=
  fun w => (ad config, {| console := console w; wire := (wire w ++ [config])%list |}).

(** ** Configuration *)

(** [process.env]: a variable is a string or is unset. *)
Record Env : Type := {
  REACT_APP_API_URL : option string;
  REACT_APP_API_VERSION : option string
}.

(** [x || d] on an environment variable. *)
Definition or_default (x : option string) (d : string) : string :=
  match x with
  | Some s => if (s =? EmptyString)%string then d else s
  | None => d
  end.

Definition API_BASE_URL (env : Env) : string :=
  or_default (REACT_APP_API_URL env) "http://localhost:8000".

Definition API_VERSION (env : Env) : string :=
  or_default (REACT_APP_API_VERSION env) "v1".

(** ** Interceptors

    The four handlers registered on the instance.  A log line is recorded
    by its arguments: [LogRequest m u] stands for the line
    "API Request: m u", [LogResponse s u] for "API Response: s u", and
    the two error entries for the [console.error] calls. *)

Definition request_onFulfilled (config : RequestConfig) : IO RequestConfig :=
  (console_write (LogRequest (method_toUpperCase (method config)) (url config)) ;;;
   ret config)%io.


Definition response_onFulfilled (response : Response) : IO Response :=
  (console_write (LogResponse (response_status response) (url (response_config response))) ;;;
   ret response)%io.

(** The argument [error.response?.data || error.message] is evaluated
    before [console.error] runs; a throw there rejects the promise with
    the [TypeError] instead. *)
Definition response_onRejected (error : value) : IO Settled :=
  match (response <- get error "response" ;;
         let data := get_opt response "data" in
         if truthy data then Return data else get error "message")%js
  with
  | Return payload =>
      (console_write (LogResponseError payload) ;;;
       ret (Rejected error))%io
  | ThrowTypeError => ret RejectedTypeError
  end.

Module Axios.

(** Headers given later override those given earlier: the library's
    defaults, then the instance's, then the call's. *)
Definition merge_headers (defaults overrides : list (string * string))
  : list (string * string) :=
  (overrides
   ++ filter (fun h => negb (existsb (String.eqb (fst h)) (map fst overrides))) defaults)%list.

(** The header every axios instance starts from. *)
Definition library_headers : list (string * string) :=
  [("Accept", "application/json, text/plain, */*")].

Definition create (base : string) (time : Z) (hdrs : list (string * string))
  (ad : Adapter) : AxiosInstance :=
  {| default_baseURL := base;
     default_timeout := time;
     default_headers := merge_headers library_headers hdrs;
     adapter := ad |}.

(** Value of the header [name], if the request has it. *)
Fixpoint header (name : string) (hdrs : list (string * string)) : option string :=
  match hdrs with
  | [] => None
  | (k, v) :: rest => if (k =? name)%string then Some v else header name rest
  end.

Definition mergeConfig (inst : AxiosInstance) (m : Method) (u : string)
  (d : Body) (hdrs : list (string * string)) : RequestConfig :=
  {| baseURL := default_baseURL inst;
     timeout := default_timeout inst;
     headers := merge_headers (default_headers inst) hdrs;
     method := m;
     url := u;
     data := d |}.

(** One request: the request interceptor, the adapter, then the response
    interceptor on the branch the adapter took.  ([request_onRejected]
    would only see a rejection raised by an interceptor registered after
    it; there is none.) *)
Definition request (inst : AxiosInstance) (config : RequestConfig) : IO Settled :=
  (config' <~ request_onFulfilled config ;;
   outcome <~ dispatch (adapter inst) config' ;;
   match outcome with
   | inl response =>
       response' <~ response_onFulfilled response ;;
       ret (Fulfilled response')
   | inr error => response_onRejected error
   end)%io.

(** The body put on the wire for a JSON request: [JSON.stringify] of the
    data. *)
Definition transformRequest (config : RequestConfig) : option json :=
  match data config with
  | JsonBody v => stringify v
  | _ => None
  end.

Definition get (inst : AxiosInstance) (u : string) : IO Settled :=
  request inst (mergeConfig inst GET u NoBody []).

Definition post (inst : AxiosInstance) (u : string) (d : Body)
  (hdrs : list (string * string)) : IO Settled :=
  request inst (mergeConfig inst POST u d hdrs).

Definition delete (inst : AxiosInstance) (u : string) : IO Settled :=
  request inst (mergeConfig inst DELETE u NoBody []).

End Axios.

(** The module-level instance [api]. *)
Definition api (env : Env) (ad : Adapter) : AxiosInstance :=
  Axios.create (API_BASE_URL env ++ "/api/" ++ API_VERSION env) 30000
    [("Content-Type", "application/json")] ad.

(* ================================================================== *)
(** * Endpoint groups *)
(* ================================================================== *)

Module healthAPI.

Definition check (api : AxiosInstance) : IO Settled :=
  Axios.get api "/health".

Definition detailed (api : AxiosInstance) : IO Settled :=
  Axios.get api "/health/detailed".

End healthAPI.

Module contractAPI.

Definition upload (api : AxiosInstance) (file : File) : IO Settled :=
  let formData := FormData.new in
  let formData := FormData.append formData "file" file in
  Axios.post api "/contracts/upload" (FormBody formData)
    [("Content-Type", "multipart/form-data")].

Definition getById (api : AxiosInstance) (contractId : Z) : IO Settled :=
  Axios.get api ("/contracts/" ++ number_toString contractId).

Definition delete (api : AxiosInstance) (contractId : Z) : IO Settled :=
  Axios.delete api ("/contracts/" ++ number_toString contractId).

Definition list (api : AxiosInstance) (skip limit : option Z) : IO Settled :=
  let skip := default skip 0 in
  let limit := default limit 100 in
  Axios.get api ("/contracts/list?skip=" ++ number_toString skip
                 ++ "&limit=" ++ number_toString limit).

End contractAPI.

Module analysisAPI.

Definition analyze (api : AxiosInstance) (contractId : Z)
  (analysisType : option string) : IO Settled :=
  let analysisType := default analysisType "full" in
  Axios.post api "/analysis/analyze"
    (JsonBody (Obj [("contract_id", Num contractId);
                    ("analysis_type", Str analysisType)])) [].

Definition getRiskLevels (api : AxiosInstance) : IO Settled :=
  Axios.get api "/analysis/risk-levels".

Definition getClauseTypes (api : AxiosInstance) : IO Settled :=
  Axios.get api "/analysis/clause-types".

Definition getContractAnalysis (api : AxiosInstance) (contractId : Z) : IO Settled :=
  Axios.get api ("/analysis/contract/" ++ number_toString contractId ++ "/analysis").

End analysisAPI.

Module datasetAPI.

(** The loop of [getClauses] over [Object.entries(params)]. *)
Definition searchParams_of (params : list (string * value))
  : completion URLSearchParams.t :=
  forEach params
    (fun '(key, value) searchParams =>
       if negb (is_undefined value) && negb (is_null value) then
         (s <- toString value ;;
          Return (URLSearchParams.append searchParams key s))%js
       else Return searchParams)
    URLSearchParams.new.

Definition getClauses (api : AxiosInstance) (params : option (list (string * value)))
  : completion (IO Settled) :=
  let params := default params [] in
  (searchParams <- searchParams_of params ;;
   Return (Axios.get api ("/dataset/clauses?" ++ URLSearchParams.toString searchParams)))%js.

Definition getClauseById (api : AxiosInstance) (clauseId : Z) : IO Settled :=
  Axios.get api ("/dataset/clauses/" ++ number_toString clauseId).

Definition getClauseTypes (api : AxiosInstance) : IO Settled :=
  Axios.get api "/dataset/clauses/types/list".

Definition getRiskLevels (api : AxiosInstance) : IO Settled :=
  Axios.get api "/dataset/clauses/risk-levels/list".

Definition getStats (api : AxiosInstance) : IO Settled :=
  Axios.get api "/dataset/stats".

Definition reload (api : AxiosInstance) : IO Settled :=
  Axios.post api "/dataset/reload" NoBody [].

End datasetAPI.

Module chatAPI.

Definition sendMessage (api : AxiosInstance) (message : string)
  (sessionId : option string) (contractId : option Z) : IO Settled :=
  Axios.post api "/chat/ask"
    (JsonBody (Obj [("message", Str message);
                    ("session_id", optional Str sessionId);
                    ("contract_id", optional Num contractId)])) [].

Definition getSuggestions (api : AxiosInstance) : IO Settled :=
  Axios.get api "/chat/suggestions".

End chatAPI.

(** A value of the filter of [getClauses] as its parameter type declares
    it, [string | number | undefined], and [null], which the loop tests
    for as well. *)
Inductive FilterValue : Type :=
| FilterUndefined
| FilterNull
| FilterString (s : string)
| FilterNumber (n : Z).

Definition filter_value (v : FilterValue) : value :=
  match v with
  | FilterUndefined => Undefined
  | FilterNull => Null
  | FilterString s => Str s
  | FilterNumber n => Num n
  end.

Definition filter_object (params : list (string * FilterValue)) : list (string * value) :=
  map (fun kv => (fst kv, filter_value (snd kv))) params.

(** A call of one operation of the gateway with arguments of the types
    the operation declares. *)
Inductive Call : Type :=
| HealthCheck
| HealthDetailed
| ContractUpload (file : File)
| ContractList (skip limit : option Z)
| ContractGetById (contractId : Z)
| ContractDelete (contractId : Z)
| AnalysisAnalyze (contractId : Z) (analysisType : option string)
| AnalysisGetRiskLevels
| AnalysisGetClauseTypes
| AnalysisGetContractAnalysis (contractId : Z)
| DatasetGetClauses (params : option (list (string * FilterValue)))
| DatasetGetClauseById (clauseId : Z)
| DatasetGetClauseTypes
| DatasetGetRiskLevels
| DatasetGetStats
| DatasetReload
| ChatSendMessage (message : string) (sessionId : option string) (contractId : option Z)
| ChatGetSuggestions.

Definition invoke (api : AxiosInstance) (c : Call) : completion (IO Settled) :=
  match c with
  | HealthCheck => Return (healthAPI.check api)
  | HealthDetailed => Return (healthAPI.detailed api)
  | ContractUpload file => Return (contractAPI.upload api file)
  | ContractList skip limit => Return (contractAPI.list api skip limit)
  | ContractGetById contractId => Return (contractAPI.getById api contractId)
  | ContractDelete contractId => Return (contractAPI.delete api contractId)
  | AnalysisAnalyze contractId analysisType =>
      Return (analysisAPI.analyze api contractId analysisType)
  | AnalysisGetRiskLevels => Return (analysisAPI.getRiskLevels api)
  | AnalysisGetClauseTypes => Return (analysisAPI.getClauseTypes api)
  | AnalysisGetContractAnalysis contractId =>
      Return (analysisAPI.getContractAnalysis api contractId)
  | DatasetGetClauses params =>
      datasetAPI.getClauses api (option_map filter_object params)
  | DatasetGetClauseById clauseId => Return (datasetAPI.getClauseById api clauseId)
  | DatasetGetClauseTypes => Return (datasetAPI.getClauseTypes api)
  | DatasetGetRiskLevels => Return (datasetAPI.getRiskLevels api)
  | DatasetGetStats => Return (datasetAPI.getStats api)
  | DatasetReload => Return (datasetAPI.reload api)
  | ChatSendMessage message sessionId contractId =>
      Return (chatAPI.sendMessage api message sessionId contractId)
  | ChatGetSuggestions => Return (chatAPI.getSuggestions api)
  end.

(* ================================================================== *)
(** * Reference definitions and sample inputs *)
(* ================================================================== *)

(** The message of a server error when "falling back" is read as
    "when the field is missing": [detail] if the body has it, else
    [error] if the body has it, else the generic string. *)
Definition message_by_presence (body : value) : value :=
  match body with
  | Obj props =>
      match lookup "detail" props with
      | Some d => d
      | None =>
          match lookup "error" props with
          | Some e => e
          | None => Str "An error occurred"
          end
      end
  | _ => Str "An error occurred"
  end.

(** The pairs [getClauses] is expected to put in the query: every entry
    whose value is neither [undefined] nor [null], in order, whatever its
    key. *)
Definition non_nullish_entries (params : list (string * value)) : list (string * string) :=
  map (fun kv => (fst kv, String_of (snd kv)))
      (filter (fun kv => negb (nullish (snd kv))) params).

(** Both environment variables unset. *)
Definition unset_env : Env :=
  {| REACT_APP_API_URL := None; REACT_APP_API_VERSION := None |}.

Definition empty_world : World := {| console := []; wire := [] |}.

(** An adapter that never reaches the server. *)
Definition offline : Adapter := fun _ => inr network_error.

(** An adapter that answers every request with an empty 200. *)
Definition online : Adapter :=
  fun config => inl {| response_status := 200;
                       response_data := Obj [];
                       response_config := config |}.

(** ** Reference definitions for the query-string properties *)

(** Characters that may occur in a serialized name or value. *)
Definition safe_char (c : ascii) : bool :=
  URLSearchParams.unreserved c || Ascii.eqb c "+" || Ascii.eqb c "%".

Fixpoint string_forallb (f : ascii -> bool) (s : string) : bool :=
  match s with
  | EmptyString => true
  | String c rest => f c && string_forallb f rest
  end.

Fixpoint count_char (c : ascii) (s : string) : nat :=
  match s with
  | EmptyString => O
  | String c' rest => ((if Ascii.eqb c' c then 1 else 0) + count_char c rest)%nat
  end.

(** [s.split(sep)] *)
Fixpoint split_on (sep : ascii) (s : string) : list string :=
  match s with
  | EmptyString => [EmptyString]
  | String c rest =>
      if Ascii.eqb c sep then EmptyString :: split_on sep rest
      else
        match split_on sep rest with
        | piece :: pieces => String c piece :: pieces
        | [] => [String c EmptyString]
        end
  end.

(** The parameters of a query string: its pieces between the [&], none
    for the empty query. *)
Definition parameters (query : string) : list string :=
  match query with
  | EmptyString => []
  | _ => split_on "&" query
  end.

(** The text of one parameter, [name=value], both serialized. *)
Definition parameter (name value : string) : string :=
  URLSearchParams.encode name ++ "=" ++ URLSearchParams.encode value.

(** A value of the declared filter type: a string or a number (in the
    safe range), or [undefined] or [null]. *)
Definition declared_value (v : value) : bool :=
  match v with
  | Undefined | Null | Str _ => true
  | Num n => safe_integer n
  | _ => false
  end.

(* ================================================================== *)
(** * Properties of the error handling utility *)
(* ================================================================== *)

Lemma get_non_nullish (v : value) (k : string) :
  nullish v = false -> get v k = Return (prop v k).
Proof. intros H. unfold get. now rewrite H. Qed.

Lemma get_nullish (v : value) (k : string) :
  nullish v = true -> get v k = ThrowTypeError.
Proof. intros H. unfold get. now rewrite H. Qed.

Lemma truthy_not_nullish (v : value) : truthy v = true -> nullish v = false.
Proof. destruct v; simpl; congruence. Qed.

Lemma toString_returns (v : value) :
  nullish v = false -> has_toString v = true -> toString v = Return (String_of v).
Proof.
  destruct v as [| |[]| | |props]; intros H H'; try discriminate H; try reflexivity.
  simpl in *. destruct (lookup "toString" props); [discriminate H'|reflexivity].
Qed.

Lemma toString_throws (v : value) :
  has_toString v = false -> toString v = ThrowTypeError.
Proof.
  destruct v as [| |[]| | |props]; intros H; try discriminate H.
  simpl in *. destruct (lookup "toString" props); [reflexivity|discriminate H].
Qed.

Lemma printable_has_toString (v : value) : printable v = true -> has_toString v = true.
Proof. destruct v; simpl; auto. Qed.

(** The branch taken when a response is attached, as one equation. *)
Lemma handleAPIError_with_response (error : value) :
  nullish error = false ->
  truthy (prop error "response") = true ->
  let response := prop error "response" in
  let data := prop response "data" in
  handleAPIError error =
    if nullish data then ThrowTypeError
    else Return {| message := (if truthy (prop data "detail") then prop data "detail"
                               else if truthy (prop data "error") then prop data "error"
                               else Str "An error occurred");
                   status := prop response "status";
                   code := prop data "error_code" |}.
Proof.
  intros Herr Hresp; cbv zeta.
  unfold handleAPIError.
  rewrite (get_non_nullish error) by assumption; cbn [Js.bind].
  rewrite Hresp.
  rewrite !(get_non_nullish (prop error "response")) by now apply truthy_not_nullish.
  cbn [Js.bind].
  destruct (nullish (prop (prop error "response") "data")) eqn:Hdata.
  - now rewrite (get_nullish _ "detail" Hdata).
  - rewrite !(get_non_nullish _ _ Hdata); cbn [Js.bind].
    destruct (truthy (prop (prop (prop error "response") "data") "detail")); cbn [Js.bind].
    + reflexivity.
    + destruct (truthy (prop (prop (prop error "response") "data") "error")); reflexivity.
Qed.

Lemma handleAPIError_without_response (error : value) :
  nullish error = false ->
  truthy (prop error "response") = false ->
  handleAPIError error =
    if truthy (prop error "request") then
      Return {| message := Str "Network error - please check your connection";
                status := Num 0;
                code := Str "NETWORK_ERROR" |}
    else
      Return {| message := (if truthy (prop error "message") then prop error "message"
                            else Str "An unexpected error occurred");
                status := Num (-1);
                code := Str "UNKNOWN_ERROR" |}.
Proof.
  intros Herr Hresp.
  unfold handleAPIError.
  rewrite !(get_non_nullish error) by assumption; cbn [Js.bind].
  rewrite Hresp.
  destruct (truthy (prop error "request")); reflexivity.
Qed.

(** [handleAPIError] throws exactly when the failure itself is
    [undefined]/[null], or when it carries a response whose body is. *)
Lemma handleAPIError_throws_iff (error : value) :
  handleAPIError error = ThrowTypeError <->
  nullish error = true
  \/ (truthy (prop error "response") = true
      /\ nullish (prop (prop error "response") "data") = true).
Proof.
  destruct (nullish error) eqn:Herr.
  - split; [now left|]. intros _. unfold handleAPIError.
    now rewrite (get_nullish error "response" Herr).
  - destruct (truthy (prop error "response")) eqn:Hresp.
    + rewrite (handleAPIError_with_response error Herr Hresp).
      destruct (nullish (prop (prop error "response") "data")).
      * split; [now right|reflexivity].
      * split; [discriminate|]. intros [H|[_ H]]; discriminate.
    + rewrite (handleAPIError_without_response error Herr Hresp).
      destruct (truthy (prop error "request"));
        (split; [discriminate|]); intros [H|[H _]]; discriminate.
Qed.

Example handleAPIError_detail :
  handleAPIError (response_error 404 (Obj [("detail", Str "Contract not found")]))
  = Return {| message := Str "Contract not found"; status := Num 404; code := Undefined |}.
Proof. reflexivity. Qed.

Example handleAPIError_text_body :
  handleAPIError (response_error 502 (Str "Bad Gateway"))
  = Return {| message := Str "An error occurred"; status := Num 502; code := Undefined |}.
Proof. reflexivity. Qed.

Example handleAPIError_thrown_string :
  handleAPIError (Str "boom")
  = Return {| message := Str "An unexpected error occurred";
              status := Num (-1); code := Str "UNKNOWN_ERROR" |}.
Proof. reflexivity. Qed.

(** C2. A failure that is [undefined] or [null] is none of the three
    cases: reading [error.response] throws before any branch is chosen,
    so the last branch, written for "anything else", is never reached
    and no normalized error comes back. *)
Theorem handleAPIError_nullish_failure_throws :
  handleAPIError Undefined = ThrowTypeError
  /\ handleAPIError Null = ThrowTypeError.
Proof. split; reflexivity. Qed.

(** The three branches on a failure that has properties (any value other
    than [undefined]/[null]), tested in this order: a response is
    attached; else a request is attached; else neither. *)
Lemma handleAPIError_three_cases (error : value) :
  nullish error = false ->
  let response := prop error "response" in
  let request := prop error "request" in
  (truthy response = true ->
     handleAPIError error =
       if nullish (prop response "data") then ThrowTypeError
       else Return {| message := (if truthy (prop (prop response "data") "detail")
                                  then prop (prop response "data") "detail"
                                  else if truthy (prop (prop response "data") "error")
                                  then prop (prop response "data") "error"
                                  else Str "An error occurred");
                      status := prop response "status";
                      code := prop (prop response "data") "error_code" |})
  /\ (truthy response = false -> truthy request = true ->
        handleAPIError error =
          Return {| message := Str "Network error - please check your connection";
                    status := Num 0;
                    code := Str "NETWORK_ERROR" |})
  /\ (truthy response = false -> truthy request = false ->
        handleAPIError error =
          Return {| message := (if truthy (prop error "message") then prop error "message"
                                else Str "An unexpected error occurred");
                    status := Num (-1);
                    code := Str "UNKNOWN_ERROR" |}).
Proof.
  intros Herr response request; subst response request.
  split; [|split].
  - intros Hresp. exact (handleAPIError_with_response error Herr Hresp).
  - intros Hresp Hreq.
    rewrite (handleAPIError_without_response error Herr Hresp). now rewrite Hreq.
  - intros Hresp Hreq.
    rewrite (handleAPIError_without_response error Herr Hresp). now rewrite Hreq.
Qed.

Lemma handleAPIError_three_cases_witness :
  nullish network_error = false
  /\ handleAPIError network_error =
       Return {| message := Str "Network error - please check your connection";
                 status := Num 0;
                 code := Str "NETWORK_ERROR" |}.
Proof.
  split; [reflexivity|].
  apply (proj1 (proj2 (handleAPIError_three_cases network_error eq_refl)));
    reflexivity.
Defined.

(** C3 (as amended). For a failure carrying a response whose body is
    neither [undefined] nor [null]: the message is the body's [detail]
    when that is truthy, else its [error] when that is truthy, else
    "An error occurred"; the status is the response's status; the code is
    the body's [error_code] ([undefined] when the body has none). *)
Theorem handleAPIError_server_error (error : value) :
  nullish error = false ->
  truthy (prop error "response") = true ->
  nullish (prop (prop error "response") "data") = false ->
  let response := prop error "response" in
  let data := prop response "data" in
  handleAPIError error =
    Return {| message := (if truthy (prop data "detail") then prop data "detail"
                          else if truthy (prop data "error") then prop data "error"
                          else Str "An error occurred");
              status := prop response "status";
              code := prop data "error_code" |}.
Proof.
  intros Herr Hresp Hdata; cbv zeta.
  rewrite (handleAPIError_with_response error Herr Hresp); cbv zeta.
  now rewrite Hdata.
Qed.

Lemma handleAPIError_server_error_witness :
  handleAPIError
    (response_error 422 (Obj [("error", Str "Unsupported file"); ("error_code", Str "E415")]))
  = Return {| message := Str "Unsupported file"; status := Num 422; code := Str "E415" |}.
Proof.
  apply (handleAPIError_server_error
           (response_error 422
              (Obj [("error", Str "Unsupported file"); ("error_code", Str "E415")])));
    reflexivity.
Defined.

(** C3, counterexample. The body whose only field is an empty [error]
    string has no [detail] and has an [error] field, yet the message is
    the generic string and not that field: an empty string is passed over
    like a missing field. *)
Lemma handleAPIError_empty_error_field :
  let body := Obj [("error", Str EmptyString)] in
  handleAPIError (response_error 400 body)
  = Return {| message := Str "An error occurred"; status := Num 400; code := Undefined |}
  /\ message_by_presence body = Str EmptyString
  /\ handleAPIError (response_error 400 body)
     <> Return {| message := message_by_presence body;
                  status := Num 400;
                  code := prop body "error_code" |}.
Proof.
  cbv zeta. split; [reflexivity|]. split; [reflexivity|].
  vm_compute. discriminate.
Qed.

(** C4. A 500 response whose JSON body is the literal [null] reaches the
    first branch, where reading [data.detail] throws: the failure is
    mapped to no normalized error at all. *)
Theorem handleAPIError_null_body_throws :
  handleAPIError (response_error 500 Null) = ThrowTypeError.
Proof. reflexivity. Qed.

(* ================================================================== *)
(** * Properties of the request pipeline *)
(* ================================================================== *)

Lemma response_onRejected_non_nullish (error : value) (w : World) :
  nullish error = false ->
  response_onRejected error w
  = (Rejected error,
     {| console := (console w ++
                    [LogResponseError
                       (if truthy (get_opt (prop error "response") "data")
                        then get_opt (prop error "response") "data"
                        else prop error "message")])%list;
        wire := wire w |}).
Proof.
  intros Herr. unfold response_onRejected.
  rewrite !(get_non_nullish error) by assumption; cbn [Js.bind].
  destruct (truthy (get_opt (prop error "response") "data")); reflexivity.
Qed.

Lemma response_onRejected_nullish (error : value) (w : World) :
  nullish error = true -> response_onRejected error w = (RejectedTypeError, w).
Proof.
  intros Herr. unfold response_onRejected.
  now rewrite (get_nullish error "response" Herr).
Qed.

Lemma response_onRejected_wire (error : value) (w : World) :
  wire (snd (response_onRejected error w)) = wire w.
Proof.
  destruct (nullish error) eqn:Herr.
  - now rewrite response_onRejected_nullish.
  - now rewrite response_onRejected_non_nullish.
Qed.


(** What one request does, step by step. *)
Lemma request_run (inst : AxiosInstance) (config : RequestConfig) (w : World) :
  Axios.request inst config w =
    let w1 := {| console := (console w ++
                             [LogRequest (method_toUpperCase (method config)) (url config)])%list;
                 wire := (wire w ++ [config])%list |} in
    match adapter inst config with
    | inl response =>
        (Fulfilled response,
         {| console := (console w1 ++
                        [LogResponse (response_status response)
                                     (url (response_config response))])%list;
            wire := wire w1 |})
    | inr error => response_onRejected error w1
    end.
Proof.
  unfold Axios.request, seq, request_onFulfilled, dispatch, console_write, ret; simpl.
  destruct (adapter inst config); reflexivity.
Qed.

Lemma request_wire (inst : AxiosInstance) (config : RequestConfig) (w : World) :
  wire (snd (Axios.request inst config w)) = (wire w ++ [config])%list.
Proof.
  rewrite request_run; cbv zeta.
  destruct (adapter inst config) as [response|error].
  - reflexivity.
  - now rewrite response_onRejected_wire.
Qed.

Lemma request_fulfilled (inst : AxiosInstance) (config : RequestConfig) (w : World)
  (response : Response) :
  adapter inst config = inl response ->
  fst (Axios.request inst config w) = Fulfilled response.
Proof. intros H. rewrite request_run; cbv zeta. now rewrite H. Qed.

Lemma request_rejected (inst : AxiosInstance) (config : RequestConfig) (w : World)
  (error : value) :
  adapter inst config = inr error ->
  nullish error = false ->
  fst (Axios.request inst config w) = Rejected error.
Proof.
  intros H Herr. rewrite request_run; cbv zeta. rewrite H.
  now rewrite response_onRejected_non_nullish.
Qed.


(** ** The query of [getClauses] *)

Lemma searchParams_of_from (params : list (string * value)) (acc : URLSearchParams.t) :
  forallb (fun kv => has_toString (snd kv)) params = true ->
  forEach params
    (fun '(key, value) searchParams =>
       if negb (is_undefined value) && negb (is_null value) then
         (s <- toString value ;;
          Return (URLSearchParams.append searchParams key s))%js
       else Return searchParams)
    acc
  = Return (acc ++ non_nullish_entries params)%list.
Proof.
  intros Hall. revert acc.
  induction params as [|[key value] rest IH]; intros acc.
  - simpl. now rewrite app_nil_r.
  - cbn [forallb snd] in Hall. apply andb_prop in Hall. destruct Hall as [Hval Hrest].
    specialize (IH Hrest). cbn [forEach].
    destruct value as [| |b|n|s|props]; cbn [is_undefined is_null negb andb Js.bind];
      try (rewrite IH; reflexivity).
    all: rewrite toString_returns by (reflexivity || exact Hval); cbn [Js.bind];
      rewrite IH; unfold URLSearchParams.append, non_nullish_entries;
      cbn [filter nullish negb map fst snd]; now rewrite <- app_assoc.
Qed.

Lemma searchParams_of_entries (params : list (string * value)) :
  forallb (fun kv => has_toString (snd kv)) params = true ->
  datasetAPI.searchParams_of params = Return (non_nullish_entries params).
Proof.
  intros Hall. unfold datasetAPI.searchParams_of.
  now rewrite searchParams_of_from by assumption.
Qed.

Lemma getClauses_returns (api : AxiosInstance) (params : option (list (string * value))) :
  forallb (fun kv => has_toString (snd kv)) (default params []) = true ->
  datasetAPI.getClauses api params =
    Return (Axios.get api
              ("/dataset/clauses?"
               ++ URLSearchParams.toString (non_nullish_entries (default params [])))).
Proof.
  intros Hall. unfold datasetAPI.getClauses.
  now rewrite searchParams_of_entries by assumption.
Qed.

Lemma searchParams_of_throws_from (params : list (string * value))
  (acc : URLSearchParams.t) :
  forallb (fun kv => has_toString (snd kv)) params = false ->
  forEach params
    (fun '(key, value) searchParams =>
       if negb (is_undefined value) && negb (is_null value) then
         (s <- toString value ;;
          Return (URLSearchParams.append searchParams key s))%js
       else Return searchParams)
    acc
  = ThrowTypeError.
Proof.
  revert acc. induction params as [|[key value] rest IH]; intros acc H;
    [discriminate H|].
  cbn [forallb snd] in H. cbn [forEach].
  destruct (has_toString value) eqn:Hval.
  - cbn [andb] in H.
    destruct value as [| |b|n|s|props]; cbn [is_undefined is_null negb andb Js.bind];
      try (apply IH; exact H).
    all: rewrite toString_returns by (reflexivity || exact Hval); cbn [Js.bind];
      apply IH; exact H.
  - destruct value as [| |b|n|s|props]; try discriminate Hval.
    cbn [is_undefined is_null negb andb].
    now rewrite (toString_throws _ Hval).
Qed.

(** [getClauses] throws as soon as one value of the filter is an object
    with a [toString] of its own. *)
Lemma getClauses_throws (api : AxiosInstance) (params : list (string * value)) :
  forallb (fun kv => has_toString (snd kv)) params = false ->
  datasetAPI.getClauses api (Some params) = ThrowTypeError.
Proof.
  intros H. unfold datasetAPI.getClauses, datasetAPI.searchParams_of. cbn [default].
  now rewrite searchParams_of_throws_from.
Qed.

(** A filter of the declared type holds no value without [toString]. *)
Lemma filter_object_has_toString (params : option (list (string * FilterValue))) :
  forallb (fun kv => has_toString (snd kv)) (default (option_map filter_object params) [])
  = true.
Proof.
  destruct params as [params|]; [|reflexivity]. cbn [option_map default].
  induction params as [|[key [| |s|n]] rest IH]; simpl; auto.
Qed.

Lemma getClauses_declared_returns (api : AxiosInstance)
  (params : option (list (string * FilterValue))) :
  datasetAPI.getClauses api (option_map filter_object params) =
    Return (Axios.get api
              ("/dataset/clauses?"
               ++ URLSearchParams.toString
                    (non_nullish_entries (default (option_map filter_object params) [])))).
Proof. apply getClauses_returns, filter_object_has_toString. Qed.

(** ** Every operation is one request on the shared instance *)

Lemma invoke_is_request (inst : AxiosInstance) (c : Call) :
  exists config : RequestConfig,
    invoke inst c = Return (Axios.request inst config)
    /\ baseURL config = default_baseURL inst
    /\ timeout config = default_timeout inst
    /\ exists resource : string, url config = String "/" resource.
Proof.
  destruct c; cbn [invoke]; try rewrite getClauses_declared_returns;
    (eexists; split; [reflexivity|]);
    (split; [reflexivity|]); (split; [reflexivity|]);
    eexists; reflexivity.
Qed.

(** ** Characters and separators of the query *)

Ltac each_byte c :=
  destruct c as [[] [] [] [] [] [] [] []].

Lemma string_forallb_app (f : ascii -> bool) (s t : string) :
  string_forallb f (s ++ t) = string_forallb f s && string_forallb f t.
Proof.
  induction s as [|c s IH]; simpl; [reflexivity|].
  rewrite IH. now rewrite andb_assoc.
Qed.

Lemma string_length_app (s t : string) :
  String.length (s ++ t) = (String.length s + String.length t)%nat.
Proof. induction s as [|c s IH]; simpl; [reflexivity|now rewrite IH]. Qed.

Lemma count_char_app (c : ascii) (s t : string) :
  count_char c (s ++ t) = (count_char c s + count_char c t)%nat.
Proof.
  induction s as [|c' s IH]; simpl; [reflexivity|].
  rewrite IH. lia.
Qed.

Lemma count_char_safe (c : ascii) (s : string) :
  safe_char c = false -> string_forallb safe_char s = true -> count_char c s = O.
Proof.
  intros Hc. induction s as [|c' s IH]; simpl; [reflexivity|].
  intros H. apply andb_prop in H. destruct H as [Hc' Hs].
  destruct (Ascii.eqb_spec c' c) as [->|_]; [congruence|].
  now rewrite IH.
Qed.

Lemma encode_byte_safe (c : ascii) :
  string_forallb safe_char (URLSearchParams.encode_byte c) = true.
Proof. each_byte c; reflexivity. Qed.

Lemma encode_byte_length (c : ascii) :
  (1 <= String.length (URLSearchParams.encode_byte c) <= 3)%nat.
Proof. each_byte c; simpl; lia. Qed.

Lemma encode_all_safe (s : string) :
  string_forallb safe_char (URLSearchParams.encode s) = true.
Proof.
  induction s as [|c s IH]; simpl; [reflexivity|].
  now rewrite string_forallb_app, encode_byte_safe, IH.
Qed.

Lemma pair_toString_separators (p : string * string) :
  count_char "=" (URLSearchParams.pair_toString p) = 1%nat
  /\ count_char "&" (URLSearchParams.pair_toString p) = O.
Proof.
  unfold URLSearchParams.pair_toString.
  rewrite !count_char_app.
  rewrite (count_char_safe "=" (URLSearchParams.encode (fst p)) eq_refl (encode_all_safe _)).
  rewrite (count_char_safe "=" (URLSearchParams.encode (snd p)) eq_refl (encode_all_safe _)).
  rewrite (count_char_safe "&" (URLSearchParams.encode (fst p)) eq_refl (encode_all_safe _)).
  rewrite (count_char_safe "&" (URLSearchParams.encode (snd p)) eq_refl (encode_all_safe _)).
  split; reflexivity.
Qed.

Lemma split_on_no_separator (sep : ascii) (s : string) :
  count_char sep s = O -> split_on sep s = [s].
Proof.
  induction s as [|c s IH]; simpl; intros H; [reflexivity|].
  destruct (Ascii.eqb c sep); [discriminate H|].
  now rewrite IH.
Qed.

Lemma split_on_app (sep : ascii) (piece rest : string) :
  count_char sep piece = O ->
  split_on sep (piece ++ String sep rest) = piece :: split_on sep rest.
Proof.
  induction piece as [|c piece IH]; simpl; intros H.
  - now rewrite Ascii.eqb_refl.
  - destruct (Ascii.eqb c sep); [discriminate H|].
    now rewrite IH.
Qed.

Lemma pair_toString_not_empty (p : string * string) :
  URLSearchParams.pair_toString p <> EmptyString.
Proof.
  intros H. pose proof (proj1 (pair_toString_separators p)) as Heq.
  rewrite H in Heq. discriminate Heq.
Qed.

Lemma parameters_not_empty (s : string) :
  s <> EmptyString -> parameters s = split_on "&" s.
Proof. destruct s; [contradiction|reflexivity]. Qed.

Lemma toString_not_empty (p : string * string) (sp : URLSearchParams.t) :
  URLSearchParams.toString (p :: sp) <> EmptyString.
Proof.
  pose proof (pair_toString_not_empty p) as Hp.
  unfold URLSearchParams.toString. destruct sp as [|q sp]; cbn [map String.concat].
  - exact Hp.
  - destruct (URLSearchParams.pair_toString p); [contradiction|discriminate].
Qed.

(** The pieces of a serialized query are the serialized pairs, one for
    one and in order. *)
Lemma parameters_toString (sp : URLSearchParams.t) :
  parameters (URLSearchParams.toString sp) = map URLSearchParams.pair_toString sp.
Proof.
  induction sp as [|p sp IH]; [reflexivity|].
  rewrite parameters_not_empty by apply toString_not_empty.
  destruct sp as [|q sp].
  - cbn. apply split_on_no_separator, pair_toString_separators.
  - change (URLSearchParams.toString (p :: q :: sp))
      with (URLSearchParams.pair_toString p
            ++ String "&" (URLSearchParams.toString (q :: sp))).
    rewrite split_on_app by apply pair_toString_separators.
    rewrite <- parameters_not_empty by apply toString_not_empty.
    now rewrite IH.
Qed.

(** The query of [getClauses], parameter by parameter, for a filter on
    whose values [toString] can be called. *)
Lemma getClauses_parameters (inst : AxiosInstance) (params : list (string * value)) :
  forallb (fun kv => has_toString (snd kv)) params = true ->
  exists query : string,
    datasetAPI.getClauses inst (Some params)
    = Return (Axios.get inst ("/dataset/clauses?" ++ query))
    /\ parameters query
       = map (fun kv => parameter (fst kv) (String_of (snd kv)))
             (filter (fun kv => negb (nullish (snd kv))) params).
Proof.
  intros Hall.
  exists (URLSearchParams.toString (non_nullish_entries params)).
  split; [now apply getClauses_returns|].
  rewrite parameters_toString. unfold non_nullish_entries.
  rewrite map_map. reflexivity.
Qed.

Lemma forallb_weaken {A : Type} (f g : A -> bool) (l : list A) :
  (forall a, f a = true -> g a = true) ->
  forallb f l = true -> forallb g l = true.
Proof.
  intros Hfg. induction l as [|a l IH]; simpl; [reflexivity|].
  intros H. apply andb_prop in H. destruct H as [Ha Hl].
  now rewrite (Hfg a Ha), IH.
Qed.

Lemma declared_has_toString (v : value) : declared_value v = true -> has_toString v = true.
Proof. destruct v; simpl; auto; discriminate. Qed.

(* ================================================================== *)
(** * Properties of the gateway operations *)
(* ================================================================== *)

(** C1, counterexample. With the server unreachable, [healthAPI.check]
    rejects with the adapter's own error object, which has the
    properties [message] and [request] and is not of the shape
    [{message, status, code}]. *)
Lemma health_check_failure_is_raw :
  fst (healthAPI.check (api unset_env offline) empty_world) = Rejected network_error
  /\ forall ne : NormalizedError, network_error <> NormalizedError_value ne.
Proof.
  split; [reflexivity|].
  intros ne H. unfold network_error, NormalizedError_value in H.
  discriminate H.
Qed.

(** C1 (as amended). Every operation of the gateway is one request on
    the shared instance.  When the adapter answers, the caller receives
    that response; when the adapter fails, the caller's promise is
    rejected with the adapter's error value itself: no operation turns it
    into a normalized error. *)
Theorem failed_call_rejects_with_adapter_error (inst : AxiosInstance) (c : Call) :
  exists config : RequestConfig,
    invoke inst c = Return (Axios.request inst config)
    /\ (forall (w : World) (response : Response),
          adapter inst config = inl response ->
          fst (Axios.request inst config w) = Fulfilled response)
    /\ (forall (w : World) (error : value),
          adapter inst config = inr error ->
          nullish error = false ->
          fst (Axios.request inst config w) = Rejected error).
Proof.
  destruct (invoke_is_request inst c) as (config & Hinv & _).
  exists config. split; [exact Hinv|]. split.
  - intros w response H. now apply request_fulfilled.
  - intros w error H Herr. now apply request_rejected.
Qed.

Lemma failed_call_rejects_with_adapter_error_witness :
  exists config : RequestConfig,
    invoke (api unset_env offline) (ContractGetById 7)
    = Return (Axios.request (api unset_env offline) config)
    /\ fst (Axios.request (api unset_env offline) config empty_world)
       = Rejected network_error.
Proof.
  destruct (failed_call_rejects_with_adapter_error (api unset_env offline) (ContractGetById 7))
    as (config & Hinv & _ & Hrej).
  exists config. split; [exact Hinv|].
  apply Hrej; reflexivity.
Defined.

(** C5, counterexample. [sendMessage("hi")] hands over an object whose
    [session_id] and [contract_id] are [undefined], not [null], and the
    JSON body that goes out has the single key [message]. *)
Lemma sendMessage_absent_ids_not_null :
  let w := snd (chatAPI.sendMessage (api unset_env online) "hi" None None empty_world) in
  map data (wire w)
  = [JsonBody (Obj [("message", Str "hi");
                    ("session_id", Undefined);
                    ("contract_id", Undefined)])]
  /\ map Axios.transformRequest (wire w) = [Some (JObject [("message", JString "hi")])]
  /\ member "session_id" [("message", JString "hi")] <> Some JNull
  /\ member "contract_id" [("message", JString "hi")] <> Some JNull.
Proof.
  cbv zeta. repeat split; try reflexivity; vm_compute; discriminate.
Qed.

(** C5 (as amended). [sendMessage] posts an object with the three
    properties [message], [session_id], [contract_id], in this order; an
    omitted argument leaves its property [undefined].  In the JSON body
    [message] is always present, and [session_id] and [contract_id] are
    present exactly when the argument was given. *)
Theorem sendMessage_body (inst : AxiosInstance) (message : string)
  (sessionId : option string) (contractId : option Z) (w : World) :
  exists config : RequestConfig,
    wire (snd (chatAPI.sendMessage inst message sessionId contractId w))
    = (wire w ++ [config])%list
    /\ method config = POST
    /\ url config = "/chat/ask"
    /\ data config
       = JsonBody (Obj [("message", Str message);
                        ("session_id", optional Str sessionId);
                        ("contract_id", optional Num contractId)])
    /\ Axios.transformRequest config
       = Some (JObject
                 ([("message", JString message)]
                  ++ match sessionId with
                     | Some s => [("session_id", JString s)]
                     | None => []
                     end
                  ++ match contractId with
                     | Some n => [("contract_id", JNumber n)]
                     | None => []
                     end)%list).
Proof.
  eexists. split; [apply request_wire|].
  repeat split.
  destruct sessionId, contractId; reflexivity.
Qed.

(** C6. For every filter whose values are of the declared types, the
    query string consists of one parameter [key=value] per entry whose
    value is neither [undefined] nor [null], in the order of the entries,
    and of nothing else: an entry that is absent, [undefined] or [null]
    contributes no parameter, not even an empty one.  The filter
    [{clauseType: "NDA"}] gives the query [clauseType=NDA], which is that
    single parameter; the empty filter, or no filter, gives the empty
    query, which has no parameter. *)
Theorem getClauses_query_string (inst : AxiosInstance) (params : list (string * value)) :
  (forallb (fun kv => declared_value (snd kv)) params = true ->
   exists query : string,
     datasetAPI.getClauses inst (Some params)
     = Return (Axios.get inst ("/dataset/clauses?" ++ query))
     /\ parameters query
        = map (fun kv => parameter (fst kv) (String_of (snd kv)))
              (filter (fun kv => negb (nullish (snd kv))) params))
  /\ datasetAPI.getClauses inst (Some [("clauseType", Str "NDA")])
     = Return (Axios.get inst "/dataset/clauses?clauseType=NDA")
  /\ parameters "clauseType=NDA" = ["clauseType=NDA"]
  /\ datasetAPI.getClauses inst (Some []) = Return (Axios.get inst "/dataset/clauses?")
  /\ datasetAPI.getClauses inst None = Return (Axios.get inst "/dataset/clauses?")
  /\ parameters EmptyString = [].
Proof.
  split; [|repeat split].
  intros Hdecl. apply getClauses_parameters.
  revert Hdecl. apply forallb_weaken. intros kv. apply declared_has_toString.
Qed.

Lemma getClauses_query_string_witness :
  exists query : string,
    datasetAPI.getClauses (api unset_env online)
      (Some [("clause_type", Str "Non-Compete & NDA"); ("page", Undefined);
             ("page_size", Num 20)])
    = Return (Axios.get (api unset_env online) ("/dataset/clauses?" ++ query))
    /\ parameters query = ["clause_type=Non-Compete+%26+NDA"; "page_size=20"].
Proof.
  destruct (proj1 (getClauses_query_string (api unset_env online)
                     [("clause_type", Str "Non-Compete & NDA"); ("page", Undefined);
                      ("page_size", Num 20)]) eq_refl)
    as (query & Hsent & Hparams).
  exists query. split; [exact Hsent|exact Hparams].
Defined.

(** C7. Every operation sends its request with the base
    [{baseURL}/api/{version}] fixed when the instance is created, a path
    [/{resource}] relative to it, and a timeout of 30 seconds.  The base
    URL and the version come from the environment, and are
    [http://localhost:8000] and [v1] when the variable is unset. *)
Theorem request_config_of_call (env : Env) (ad : Adapter) (c : Call) :
  (exists config : RequestConfig,
     invoke (api env ad) c = Return (Axios.request (api env ad) config)
     /\ (forall w : World,
           wire (snd (Axios.request (api env ad) config w)) = (wire w ++ [config])%list)
     /\ baseURL config = API_BASE_URL env ++ "/api/" ++ API_VERSION env
     /\ timeout config = 30 * 1000
     /\ exists resource : string, url config = "/" ++ resource)
  /\ (forall version : option string,
        API_BASE_URL {| REACT_APP_API_URL := None; REACT_APP_API_VERSION := version |}
        = "http://localhost:8000")
  /\ (forall base : option string,
        API_VERSION {| REACT_APP_API_URL := base; REACT_APP_API_VERSION := None |} = "v1")
  /\ (forall base : string,
        base <> EmptyString -> REACT_APP_API_URL env = Some base -> API_BASE_URL env = base)
  /\ (forall version : string,
        version <> EmptyString -> REACT_APP_API_VERSION env = Some version ->
        API_VERSION env = version).
Proof.
  split; [|split; [|split; [|split]]].
  - destruct (invoke_is_request (api env ad) c) as (config & Hinv & Hbase & Htime & Hurl).
    exists config. split; [exact Hinv|].
    split; [intros w; apply request_wire|].
    split; [exact Hbase|]. split; [exact Htime|exact Hurl].
  - reflexivity.
  - reflexivity.
  - intros base Hne Hset. unfold API_BASE_URL, or_default. rewrite Hset.
    destruct (String.eqb_spec base EmptyString); [contradiction|reflexivity].
  - intros version Hne Hset. unfold API_VERSION, or_default. rewrite Hset.
    destruct (String.eqb_spec version EmptyString); [contradiction|reflexivity].
Qed.

Lemma request_config_of_call_witness :
  let env := {| REACT_APP_API_URL := Some "https://legalease.example";
                REACT_APP_API_VERSION := Some "v2" |} in
  API_BASE_URL env = "https://legalease.example" /\ API_VERSION env = "v2".
Proof.
  cbv zeta. split.
  - apply (proj1 (proj2 (proj2 (proj2
             (request_config_of_call
                {| REACT_APP_API_URL := Some "https://legalease.example";
                   REACT_APP_API_VERSION := Some "v2" |} online HealthCheck))))
             "https://legalease.example"); [discriminate|reflexivity].
  - apply (proj2 (proj2 (proj2 (proj2
             (request_config_of_call
                {| REACT_APP_API_URL := Some "https://legalease.example";
                   REACT_APP_API_VERSION := Some "v2" |} online HealthCheck))))
             "v2"); [discriminate|reflexivity].
Defined.

(** C8. [upload(file)] posts to [/contracts/upload] a form with exactly
    one part, named [file], holding the given file, and asks for the
    content type [multipart/form-data]. *)
Theorem upload_multipart_body (env : Env) (ad : Adapter) (file : File) (w : World) :
  exists config : RequestConfig,
    wire (snd (contractAPI.upload (api env ad) file w)) = (wire w ++ [config])%list
    /\ method config = POST
    /\ url config = "/contracts/upload"
    /\ Axios.header "Content-Type" (headers config) = Some "multipart/form-data"
    /\ exists formData : FormData.t,
         data config = FormBody formData
         /\ List.length formData = 1%nat
         /\ formData = [("file", file)].
Proof.
  eexists. split; [apply request_wire|].
  repeat split. eexists. repeat split.
Qed.




(** C10, counterexample. A value that is an object with a [toString]
    property of its own that is not a function is neither [undefined]
    nor [null], yet it is not serialized: [value.toString()] throws and
    no request is sent. *)
Lemma getClauses_unprintable_value_throws :
  nullish (Obj [("toString", Num 1)]) = false
  /\ datasetAPI.getClauses (api unset_env online)
       (Some [("sort", Obj [("toString", Num 1)])])
     = ThrowTypeError.
Proof. split; reflexivity. Qed.

(** C10 (as amended). [getClauses] tests values only, never keys.  For
    every object whose values can be printed (strings, booleans, safe
    integers, objects without a [toString] of their own, [undefined],
    [null]), the query holds one parameter per entry whose value is
    neither [undefined] nor [null], in order and whatever the key.  A
    single numeric entry is serialized under any key and for any safe
    integer, 0 included.  When one value is an object with a [toString]
    of its own, [getClauses] throws instead. *)
Theorem getClauses_no_whitelist (inst : AxiosInstance) :
  (forall params : list (string * value),
     forallb (fun kv => printable (snd kv)) params = true ->
     exists query : string,
       datasetAPI.getClauses inst (Some params)
       = Return (Axios.get inst ("/dataset/clauses?" ++ query))
       /\ parameters query
          = map (fun kv => parameter (fst kv) (String_of (snd kv)))
                (filter (fun kv => negb (nullish (snd kv))) params))
  /\ (forall (key : string) (n : Z),
        safe_integer n = true ->
        datasetAPI.getClauses inst (Some [(key, Num n)])
        = Return (Axios.get inst
                    ("/dataset/clauses?" ++ parameter key (number_toString n))))
  /\ datasetAPI.getClauses inst (Some [("sort", Str "asc"); ("page", Num 0)])
     = Return (Axios.get inst "/dataset/clauses?sort=asc&page=0")
  /\ (forall params : list (string * value),
        forallb (fun kv => has_toString (snd kv)) params = false ->
        datasetAPI.getClauses inst (Some params) = ThrowTypeError).
Proof.
  split; [|split; [|split]].
  - intros params Hall. apply getClauses_parameters.
    revert Hall. apply forallb_weaken. intros kv. apply printable_has_toString.
  - intros key n _. reflexivity.
  - reflexivity.
  - intros params. apply getClauses_throws.
Qed.

Lemma getClauses_no_whitelist_witness :
  exists query : string,
    datasetAPI.getClauses (api unset_env online)
      (Some [("sort", Str "asc"); ("archived", Bool false); ("page", Num 0);
             ("extra", Obj []); ("q", Null)])
    = Return (Axios.get (api unset_env online) ("/dataset/clauses?" ++ query))
    /\ parameters query
       = ["sort=asc"; "archived=false"; "page=0"; "extra=%5Bobject+Object%5D"].
Proof.
  destruct (proj1 (getClauses_no_whitelist (api unset_env online))
              [("sort", Str "asc"); ("archived", Bool false); ("page", Num 0);
               ("extra", Obj []); ("q", Null)] eq_refl)
    as (query & Hsent & Hparams).
  exists query. split; [exact Hsent|exact Hparams].
Defined.

(* ================================================================== *)
(** * Further properties of the error handling utility *)
(* ================================================================== *)

Lemma returned_message_is_truthy (error : value) (ne : NormalizedError) :
  handleAPIError error = Return ne -> truthy (message ne) = true.
Proof.
  intros H.
  destruct (nullish error) eqn:Herr.
  - unfold handleAPIError in H. rewrite (get_nullish error "response" Herr) in H.
    discriminate H.
  - destruct (truthy (prop error "response")) eqn:Hresp.
    + rewrite (handleAPIError_with_response error Herr Hresp) in H; cbv zeta in H.
      destruct (nullish (prop (prop error "response") "data")); [discriminate H|].
      injection H as <-. cbn [message].
      destruct (truthy (prop (prop (prop error "response") "data") "detail")) eqn:Hd;
        [exact Hd|].
      destruct (truthy (prop (prop (prop error "response") "data") "error")) eqn:He;
        [exact He|reflexivity].
    + rewrite (handleAPIError_without_response error Herr Hresp) in H.
      destruct (truthy (prop error "request")); injection H as <-; cbn [message].
      * reflexivity.
      * destruct (truthy (prop error "message")) eqn:Hm; [exact Hm|reflexivity].
Qed.

(** X1. [handleAPIError] returns a normalized error exactly for the
    failures that are neither [undefined] nor [null] and whose response,
    when one is attached, has a body that is neither [undefined] nor
    [null]; on every other input it throws. *)
Theorem handleAPIError_returns_iff (error : value) :
  (exists ne : NormalizedError, handleAPIError error = Return ne) <->
  nullish error = false
  /\ (truthy (prop error "response") = true ->
      nullish (prop (prop error "response") "data") = false).
Proof.
  split.
  - intros [ne H]. split.
    + destruct (nullish error) eqn:Herr; [|reflexivity].
      rewrite (proj2 (handleAPIError_throws_iff error) (or_introl Herr)) in H.
      discriminate H.
    + intros Hresp.
      destruct (nullish (prop (prop error "response") "data")) eqn:Hdata; [|reflexivity].
      rewrite (proj2 (handleAPIError_throws_iff error) (or_intror (conj Hresp Hdata))) in H.
      discriminate H.
  - intros [Herr Hdata].
    destruct (handleAPIError error) as [ne|] eqn:H; [now exists ne|].
    apply handleAPIError_throws_iff in H. destruct H as [H|[Hresp H]].
    + congruence.
    + rewrite (Hdata Hresp) in H. discriminate H.
Qed.

Lemma handleAPIError_returns_iff_witness :
  exists ne : NormalizedError,
    handleAPIError (response_error 503 (Str "Service Unavailable")) = Return ne.
Proof.
  apply (proj2 (handleAPIError_returns_iff (response_error 503 (Str "Service Unavailable")))).
  split; [reflexivity|]. intros _. reflexivity.
Defined.

(** X2. Whenever [handleAPIError] returns, the message it returns is
    truthy: it is never [undefined], [null], the empty string, 0 or
    [false]. *)
Theorem handleAPIError_message_truthy (error : value) (ne : NormalizedError) :
  handleAPIError error = Return ne -> truthy (message ne) = true.
Proof. apply returned_message_is_truthy. Qed.

Lemma handleAPIError_message_truthy_witness :
  truthy (Str "An error occurred") = true.
Proof.
  apply (handleAPIError_message_truthy
           (response_error 400 (Obj [("detail", Str EmptyString)]))
           {| message := Str "An error occurred"; status := Num 400; code := Undefined |}).
  reflexivity.
Defined.

(** X3. Normalizing an already normalized error keeps its message and
    nothing else: the status becomes -1 and the code UNKNOWN_ERROR,
    whatever they were. *)
Theorem handleAPIError_twice (error : value) (ne : NormalizedError) :
  handleAPIError error = Return ne ->
  handleAPIError (NormalizedError_value ne)
  = Return {| message := message ne; status := Num (-1); code := Str "UNKNOWN_ERROR" |}.
Proof.
  intros H. apply returned_message_is_truthy in H.
  unfold NormalizedError_value.
  rewrite handleAPIError_without_response by reflexivity.
  cbn. now rewrite H.
Qed.

Lemma handleAPIError_twice_witness :
  handleAPIError
    (NormalizedError_value
       {| message := Str "Contract not found"; status := Num 404; code := Str "E404" |})
  = Return {| message := Str "Contract not found";
              status := Num (-1);
              code := Str "UNKNOWN_ERROR" |}.
Proof.
  apply (handleAPIError_twice
           (response_error 404
              (Obj [("detail", Str "Contract not found"); ("error_code", Str "E404")]))
           {| message := Str "Contract not found"; status := Num 404; code := Str "E404" |}).
  reflexivity.
Defined.

(** X4. [handleAPIError] looks at three properties of the failure only,
    [response], [request] and [message]: two failures that agree on them
    are normalized alike, whatever else they carry. *)
Theorem handleAPIError_reads_three_properties (e1 e2 : value) :
  nullish e1 = nullish e2 ->
  prop e1 "response" = prop e2 "response" ->
  prop e1 "request" = prop e2 "request" ->
  prop e1 "message" = prop e2 "message" ->
  handleAPIError e1 = handleAPIError e2.
Proof.
  intros Hn Hresp Hreq Hmsg.
  unfold handleAPIError, get.
  now rewrite Hn, Hresp, Hreq, Hmsg.
Qed.

Lemma handleAPIError_reads_three_properties_witness :
  handleAPIError
    (Obj [("code", Str "ECONNABORTED"); ("message", Str "timeout of 30000ms exceeded");
          ("request", Obj [])])
  = handleAPIError
      (Obj [("message", Str "timeout of 30000ms exceeded"); ("request", Obj []);
            ("config", Obj [("url", Str "/health")])]).
Proof.
  apply handleAPIError_reads_three_properties; reflexivity.
Defined.

(** X5. Whatever the operation, when the adapter fails without a response
    but with the request attached (no answer, or the 30 s timeout), the
    value the caller catches is normalized by [handleAPIError] to the
    fixed network error. *)
Theorem unanswered_call_normalizes_to_network_error (inst : AxiosInstance) (c : Call) :
  exists config : RequestConfig,
    invoke inst c = Return (Axios.request inst config)
    /\ forall (w : World) (error : value),
         adapter inst config = inr error ->
         truthy (prop error "response") = false ->
         truthy (prop error "request") = true ->
         exists caught : value,
           fst (Axios.request inst config w) = Rejected caught
           /\ handleAPIError caught
              = Return {| message := Str "Network error - please check your connection";
                          status := Num 0;
                          code := Str "NETWORK_ERROR" |}.
Proof.
  destruct (invoke_is_request inst c) as (config & Hinv & _).
  exists config. split; [exact Hinv|].
  intros w error Had Hresp Hreq.
  assert (Herr : nullish error = false) by (destruct error; simpl in *; congruence).
  exists error. split; [now apply request_rejected|].
  rewrite (handleAPIError_without_response error Herr Hresp). now rewrite Hreq.
Qed.

Lemma unanswered_call_normalizes_to_network_error_witness :
  exists (config : RequestConfig) (caught : value),
    invoke (api unset_env offline) (ChatSendMessage "hi" None None)
    = Return (Axios.request (api unset_env offline) config)
    /\ fst (Axios.request (api unset_env offline) config empty_world) = Rejected caught
    /\ handleAPIError caught
       = Return {| message := Str "Network error - please check your connection";
                   status := Num 0;
                   code := Str "NETWORK_ERROR" |}.
Proof.
  destruct (unanswered_call_normalizes_to_network_error
              (api unset_env offline) (ChatSendMessage "hi" None None))
    as (config & Hinv & Hnorm).
  destruct (Hnorm empty_world network_error eq_refl eq_refl eq_refl)
    as (caught & Hrej & Hne).
  exists config, caught. auto.
Defined.

(* ================================================================== *)
(** * Further properties of the query string *)
(* ================================================================== *)

(** X6. A serialized name or value consists of ASCII letters and digits
    and the characters [*], [-], [.], [_], [+] and [%] only; in
    particular it holds no [&], [=], [#], [?], [/] and no space. *)
Theorem encode_only_safe_characters (s : string) :
  string_forallb safe_char (URLSearchParams.encode s) = true
  /\ count_char "&" (URLSearchParams.encode s) = O
  /\ count_char "=" (URLSearchParams.encode s) = O
  /\ count_char "#" (URLSearchParams.encode s) = O
  /\ count_char "?" (URLSearchParams.encode s) = O
  /\ count_char "/" (URLSearchParams.encode s) = O
  /\ count_char " " (URLSearchParams.encode s) = O.
Proof.
  pose proof (encode_all_safe s) as H.
  repeat split; try exact H; now apply count_char_safe.
Qed.

Lemma toString_separators (sp : URLSearchParams.t) :
  count_char "=" (URLSearchParams.toString sp) = List.length sp
  /\ count_char "&" (URLSearchParams.toString sp) = Nat.pred (List.length sp).
Proof.
  unfold URLSearchParams.toString.
  induction sp as [|p sp IH]; [split; reflexivity|].
  destruct (pair_toString_separators p) as [Heq Hamp].
  destruct sp as [|q sp].
  - simpl. now rewrite Heq, Hamp.
  - destruct IH as [IHeq IHamp].
    change (String.concat "&" (map URLSearchParams.pair_toString (p :: q :: sp)))
      with (URLSearchParams.pair_toString p
            ++ "&" ++ String.concat "&" (map URLSearchParams.pair_toString (q :: sp))).
    rewrite !count_char_app, Heq, Hamp, IHeq, IHamp.
    cbn [List.length Nat.pred]. split; simpl; lia.
Qed.

(** X8. In the query of [getClauses] the characters [=] and [&] occur as
    separators only, whatever the keys and values of the filter hold:
    there is one [=] per entry whose value is neither [undefined] nor
    [null], and one [&] between two consecutive ones.  The one filter
    for which no query is built is a filter with a value on which
    [toString] cannot be called; there [getClauses] throws. *)
Theorem getClauses_separators (inst : AxiosInstance) (params : list (string * value)) :
  (forallb (fun kv => has_toString (snd kv)) params = true
   /\ exists query : string,
        datasetAPI.getClauses inst (Some params)
        = Return (Axios.get inst ("/dataset/clauses?" ++ query))
        /\ count_char "=" query
           = List.length (filter (fun kv => negb (nullish (snd kv))) params)
        /\ count_char "&" query
           = Nat.pred (List.length (filter (fun kv => negb (nullish (snd kv))) params)))
  \/ (forallb (fun kv => has_toString (snd kv)) params = false
      /\ datasetAPI.getClauses inst (Some params) = ThrowTypeError).
Proof.
  destruct (forallb (fun kv => has_toString (snd kv)) params) eqn:Hall.
  - left. split; [reflexivity|].
    exists (URLSearchParams.toString (non_nullish_entries params)).
    split; [now apply getClauses_returns|].
    destruct (toString_separators (non_nullish_entries params)) as [Heq Hamp].
    rewrite Heq, Hamp. unfold non_nullish_entries. rewrite length_map.
    split; reflexivity.
  - right. split; [reflexivity|]. now apply getClauses_throws.
Qed.

Lemma encode_length_bounds (s : string) :
  (String.length s <= String.length (URLSearchParams.encode s) <= 3 * String.length s)%nat.
Proof.
  induction s as [|c s IH]; simpl; [lia|].
  rewrite string_length_app.
  pose proof (encode_byte_length c). lia.
Qed.

(** X9. A filter in which every value is [undefined] or [null] is
    requested exactly like no filter at all. *)
Theorem getClauses_nullish_filter (inst : AxiosInstance) (params : list (string * value)) :
  (forall key value, In (key, value) params -> nullish value = true) ->
  datasetAPI.getClauses inst (Some params) = datasetAPI.getClauses inst None.
Proof.
  intros Hall.
  assert (Hts : forallb (fun kv => has_toString (snd kv)) params = true).
  { clear inst. induction params as [|[key value] rest IH]; [reflexivity|].
    cbn [forallb snd].
    rewrite IH by (intros k v Hin; apply (Hall k v); now right).
    pose proof (Hall key value (or_introl eq_refl)) as Hnull.
    destruct value; try discriminate Hnull; reflexivity. }
  rewrite (getClauses_returns inst (Some params)) by exact Hts.
  rewrite (getClauses_returns inst None) by reflexivity. cbn [default].
  replace (non_nullish_entries params) with (non_nullish_entries []); [reflexivity|].
  clear Hts. unfold non_nullish_entries.
  induction params as [|[key value] rest IH]; [reflexivity|].
  cbn [filter map fst snd].
  rewrite (Hall key value (or_introl eq_refl)). cbn [negb].
  apply IH. intros k v Hin. apply (Hall k v). now right.
Qed.

Lemma getClauses_nullish_filter_witness :
  datasetAPI.getClauses (api unset_env online)
    (Some [("clause_type", Undefined); ("page", Null)])
  = datasetAPI.getClauses (api unset_env online) None.
Proof.
  apply (getClauses_nullish_filter (api unset_env online)
           [("clause_type", Undefined); ("page", Null)]).
  intros key value [H|[H|[]]]; inversion H; reflexivity.
Defined.

(* ================================================================== *)
(** * Further properties of the operations *)
(* ================================================================== *)

Lemma to_int_not_nil (n : Z) :
  Z.to_int n <> Decimal.Pos Decimal.Nil /\ Z.to_int n <> Decimal.Neg Decimal.Nil.
Proof.
  destruct n as [|p|p]; simpl; split; intros H; try discriminate H;
    injection H as H; exact (Unsigned.to_uint_nonnil p H).
Qed.

Lemma number_toString_injective (n m : Z) :
  number_toString n = number_toString m -> n = m.
Proof.
  unfold number_toString. intros H.
  apply DecimalZ.to_int_inj.
  destruct (to_int_not_nil n) as [Hn1 Hn2], (to_int_not_nil m) as [Hm1 Hm2].
  pose proof (NilZero.isi (Z.to_int n) Hn1 Hn2) as En.
  pose proof (NilZero.isi (Z.to_int m) Hm1 Hm2) as Em.
  rewrite H in En. rewrite En in Em. now injection Em.
Qed.

Lemma string_app_cancel_r (t s1 s2 : string) :
  (s1 ++ t = s2 ++ t)%string -> s1 = s2.
Proof.
  revert s2. induction s1 as [|c1 s1 IH]; intros [|c2 s2] H.
  - reflexivity.
  - apply (f_equal String.length) in H. simpl in H.
    rewrite string_length_app in H. lia.
  - apply (f_equal String.length) in H. simpl in H.
    rewrite string_length_app in H. lia.
  - simpl in H. injection H as -> H. f_equal. now apply IH.
Qed.

Lemma sent_config_unique (inst : AxiosInstance) (c1 c2 : RequestConfig) (w : World) :
  wire (snd (Axios.request inst c1 w)) = wire (snd (Axios.request inst c2 w)) ->
  c1 = c2.
Proof.
  rewrite !request_wire. intros H.
  apply app_inj_tail in H. now destruct H.
Qed.

(** X10. The four operations addressed by a numeric id put the id in the
    path without loss: called with two different ids in the safe integer
    range, an operation never sends the same request twice. *)
Theorem id_paths_are_injective (inst : AxiosInstance) (w : World) (id1 id2 : Z) :
  safe_integer id1 = true ->
  safe_integer id2 = true ->
  (wire (snd (contractAPI.getById inst id1 w)) = wire (snd (contractAPI.getById inst id2 w))
   -> id1 = id2)
  /\ (wire (snd (contractAPI.delete inst id1 w)) = wire (snd (contractAPI.delete inst id2 w))
      -> id1 = id2)
  /\ (wire (snd (analysisAPI.getContractAnalysis inst id1 w))
      = wire (snd (analysisAPI.getContractAnalysis inst id2 w))
      -> id1 = id2)
  /\ (wire (snd (datasetAPI.getClauseById inst id1 w))
      = wire (snd (datasetAPI.getClauseById inst id2 w))
      -> id1 = id2).
Proof.
  intros _ _.
  repeat split; intros H; apply sent_config_unique in H;
    apply (f_equal url) in H; cbn in H; injection H as H;
    try apply string_app_cancel_r in H; now apply number_toString_injective.
Qed.

Lemma id_paths_are_injective_witness :
  wire (snd (contractAPI.getById (api unset_env online) 12 empty_world))
  = wire (snd (contractAPI.getById (api unset_env online) (5 + 7) empty_world))
  /\ 12 = 5 + 7.
Proof.
  split; [reflexivity|].
  apply (proj1 (id_paths_are_injective (api unset_env online) empty_world 12 (5 + 7)
                  eq_refl eq_refl)).
  reflexivity.
Defined.

(** X11. No GET or DELETE request carries a body, and the only operation
    that issues a DELETE is the deletion of a contract. *)
Theorem methods_and_bodies (inst : AxiosInstance) (c : Call) :
  exists config : RequestConfig,
    invoke inst c = Return (Axios.request inst config)
    /\ (method config <> POST -> data config = NoBody)
    /\ (method config = DELETE -> exists contractId, c = ContractDelete contractId).
Proof.
  destruct c; cbn [invoke]; try rewrite getClauses_declared_returns;
    (eexists; split; [reflexivity|]); cbn; split; intros H;
    solve [reflexivity | congruence | discriminate H | eexists; reflexivity].
Qed.

Lemma methods_and_bodies_witness :
  exists config : RequestConfig,
    invoke (api unset_env online) (ContractDelete 3)
    = Return (Axios.request (api unset_env online) config)
    /\ data config = NoBody.
Proof.
  destruct (methods_and_bodies (api unset_env online) (ContractDelete 3))
    as (config & Hinv & Hbody & _).
  exists config. split; [exact Hinv|].
  apply Hbody.
  apply (f_equal (fun r => match r with
                           | Return io => map method (wire (snd (io empty_world)))
                           | ThrowTypeError => []
                           end)) in Hinv.
  cbn in Hinv. injection Hinv as Hm. rewrite <- Hm. discriminate.
Defined.

(** X12. Every request of the module instance carries exactly one
    content type: [multipart/form-data] for an upload, which replaces the
    instance's default instead of adding to it, and [application/json]
    for every other operation. *)
Theorem content_type_of_call (env : Env) (ad : Adapter) (c : Call) :
  exists config : RequestConfig,
    invoke (api env ad) c = Return (Axios.request (api env ad) config)
    /\ Axios.header "Content-Type" (headers config)
       = Some match c with
              | ContractUpload _ => "multipart/form-data"
              | _ => "application/json"
              end
    /\ List.length (filter (fun h => (fst h =? "Content-Type")%string) (headers config))
       = 1%nat.
Proof.
  destruct c; cbn [invoke]; try rewrite getClauses_declared_returns;
    (eexists; split; [reflexivity|]); split; reflexivity.
Qed.

(** X13. A request writes to the console and never erases from it: one
    line for the request, with the method in upper case and the path
    relative to the base URL, then one line for the response or for the
    error.  The error line shows the response body when it is truthy and
    the error's message otherwise. *)
Theorem request_console (inst : AxiosInstance) (config : RequestConfig) (w : World) :
  console (snd (Axios.request inst config w))
  = (console w
     ++ LogRequest (method_toUpperCase (method config)) (url config)
        :: match adapter inst config with
           | inl response =>
               [LogResponse (response_status response) (url (response_config response))]
           | inr error =>
               if nullish error then []
               else [LogResponseError
                       (if truthy (get_opt (prop error "response") "data")
                        then get_opt (prop error "response") "data"
                        else prop error "message")]
           end)%list.
Proof.
  rewrite request_run; cbv zeta.
  destruct (adapter inst config) as [response|error].
  - cbn [snd console]. now rewrite <- app_assoc.
  - destruct (nullish error) eqn:Herr.
    + now rewrite response_onRejected_nullish.
    + rewrite response_onRejected_non_nullish by assumption.
      cbn [snd console]. now rewrite <- app_assoc.
Qed.

(** X14. If the adapter rejects with [undefined] or [null], the response
    error handler throws while building its log line: the caller's
    promise is rejected with a [TypeError] instead of the adapter's
    value, and only the request line is logged. *)
Theorem nullish_rejection_becomes_type_error (inst : AxiosInstance)
  (config : RequestConfig) (w : World) (error : value) :
  adapter inst config = inr error ->
  nullish error = true ->
  Axios.request inst config w
  = (RejectedTypeError,
     {| console := (console w
                    ++ [LogRequest (method_toUpperCase (method config)) (url config)])%list;
        wire := (wire w ++ [config])%list |}).
Proof.
  intros Had Herr. rewrite request_run; cbv zeta. rewrite Had.
  now rewrite response_onRejected_nullish.
Qed.

Lemma nullish_rejection_becomes_type_error_witness :
  fst (healthAPI.check (api unset_env (fun _ => inr Undefined)) empty_world)
  = RejectedTypeError.
Proof.
  unfold healthAPI.check, Axios.get.
  rewrite (nullish_rejection_becomes_type_error
             (api unset_env (fun _ => inr Undefined)) _ empty_world Undefined);
    reflexivity.
Defined.

(** X16. The base URL and the version used by the instance are never
    empty: an environment variable set to the empty string counts as
    unset. *)
Theorem configuration_never_empty (env : Env) :
  API_BASE_URL env <> EmptyString
  /\ API_VERSION env <> EmptyString
  /\ (REACT_APP_API_URL env = Some EmptyString ->
      API_BASE_URL env = "http://localhost:8000")
  /\ (REACT_APP_API_VERSION env = Some EmptyString -> API_VERSION env = "v1").
Proof.
  unfold API_BASE_URL, API_VERSION, or_default.
  destruct env as [[base|] [version|]]; cbn [REACT_APP_API_URL REACT_APP_API_VERSION];
    repeat split;
    repeat match goal with
      | |- context [String.eqb ?s EmptyString] =>
          destruct (String.eqb_spec s EmptyString)
      end;
    try discriminate; try assumption; try reflexivity;
    intros H; injection H as H; congruence.
Qed.

Lemma configuration_never_empty_witness :
  API_BASE_URL {| REACT_APP_API_URL := Some EmptyString; REACT_APP_API_VERSION := None |}
  = "http://localhost:8000".
Proof.
  apply (proj1 (proj2 (proj2
           (configuration_never_empty
              {| REACT_APP_API_URL := Some EmptyString; REACT_APP_API_VERSION := None |})))).
  reflexivity.
Defined.

(** X17. The JSON body of [analyze] always holds both keys,
    [contract_id] and [analysis_type], the latter being "full" when the
    caller gives no analysis type. *)
Theorem analyze_body (inst : AxiosInstance) (contractId : Z)
  (analysisType : option string) (w : World) :
  exists config : RequestConfig,
    wire (snd (analysisAPI.analyze inst contractId analysisType w))
    = (wire w ++ [config])%list
    /\ method config = POST
    /\ url config = "/analysis/analyze"
    /\ Axios.transformRequest config
       = Some (JObject [("contract_id", JNumber contractId);
                        ("analysis_type",
                         JString match analysisType with
                                 | Some t => t
                                 | None => "full"
                                 end)]).
Proof.
  eexists. split; [apply request_wire|].
  repeat split.
Qed.

Lemma string_app_cancel_l (s a b : string) :
  (s ++ a = s ++ b)%string -> a = b.
Proof.
  induction s as [|c s IH]; simpl; intros H; [exact H|].
  injection H as H. now apply IH.
Qed.

Lemma split_at_first (c : ascii) (s1 t1 s2 t2 : string) :
  count_char c s1 = O -> count_char c s2 = O ->
  (s1 ++ String c t1 = s2 ++ String c t2)%string ->
  s1 = s2 /\ t1 = t2.
Proof.
  revert s2. induction s1 as [|c1 s1 IH]; intros [|c2 s2] H1 H2 H; simpl in *.
  - injection H as H. now split.
  - injection H as -> _. rewrite Ascii.eqb_refl in H2. discriminate H2.
  - injection H as -> _. rewrite Ascii.eqb_refl in H1. discriminate H1.
  - injection H as -> H.
    destruct (Ascii.eqb c2 c); [discriminate H1|].
    destruct (IH s2 H1 H2 H) as [-> ->]. now split.
Qed.

Lemma uint_digits_no_ampersand (d : Decimal.uint) :
  count_char "&" (NilEmpty.string_of_uint d) = O.
Proof. induction d; simpl; auto. Qed.

Lemma number_toString_no_ampersand (n : Z) :
  count_char "&" (number_toString n) = O.
Proof.
  unfold number_toString.
  destruct (Z.to_int n) as [d|d]; destruct d; simpl;
    rewrite ?uint_digits_no_ampersand; reflexivity.
Qed.

(** X18. The request of [list] depends on the effective offset and limit
    and on nothing else: for offsets and limits in the safe integer
    range, two calls send the same request exactly when they agree on
    [skip] and on [limit], an omitted [skip] standing for 0 and an
    omitted [limit] for 100. *)
Theorem list_pagination (inst : AxiosInstance) (w : World)
  (skip limit skip' limit' : option Z) :
  safe_integer (default skip 0) = true ->
  safe_integer (default limit 100) = true ->
  safe_integer (default skip' 0) = true ->
  safe_integer (default limit' 100) = true ->
  (wire (snd (contractAPI.list inst skip limit w))
   = wire (snd (contractAPI.list inst skip' limit' w))
   <-> default skip 0 = default skip' 0 /\ default limit 100 = default limit' 100).
Proof.
  intros _ _ _ _.
  unfold contractAPI.list; cbv zeta. split.
  - intros H. unfold Axios.get in H. apply sent_config_unique in H.
    apply (f_equal url) in H. cbn [url Axios.mergeConfig] in H.
    apply string_app_cancel_l in H.
    apply (split_at_first "&") in H; try apply number_toString_no_ampersand.
    destruct H as [Hskip Hlimit].
    apply (string_app_cancel_l "limit=") in Hlimit.
    split; now apply number_toString_injective.
  - intros [-> ->]. reflexivity.
Qed.

Lemma list_pagination_witness :
  wire (snd (contractAPI.list (api unset_env online) None None empty_world))
  = wire (snd (contractAPI.list (api unset_env online) (Some 0) (Some 100) empty_world)).
Proof.
  apply (proj2 (list_pagination (api unset_env online) empty_world
                  None None (Some 0) (Some 100) eq_refl eq_refl eq_refl eq_refl)).
  split; reflexivity.
Defined.
